(** * Verification of the notebook configuration and the model download script

    Two Python scripts are embedded here:

    - [01-maas/notebook-image/jupyter_ai_config.py], which fills the
      [AiExtension] section of the configuration object of the notebook
      server;
    - [99-model-oci-image/docker/download_model.py], whose [main] reads three
      environment variables, calls [huggingface_hub.snapshot_download] once
      and maps its outcome to an exit status.

    Python strings are sequences of Unicode code points, the process
    environment is a finite map from names to strings, and the effects of
    [main] (printing, calling the library, raising) are threaded through a
    small trace-and-exception monad. *)

From Stdlib Require Import ZArith NArith Ascii String List Bool Lia.
From Stdlib Require Import Decimal DecimalString DecimalZ.
From stdpp Require Import base option list strings gmap fin_maps.

Local Open Scope list_scope.

(** ** Python strings *)

Module PyStr.

(** A [str] value: its code points, in order. *)
Definition t : Type := list N.

(** The code points of an ASCII literal of the source. *)
Fixpoint lit (s : string) : t :=
  match s with
  | EmptyString => []
  | String c s' => N_of_ascii c :: lit s'
  end.

Definition eqb (a b : t) : bool := bool_decide (a = b).

(** [str.isspace] on one code point: the characters Python's Unicode
    database classifies as whitespace. *)
Definition isspace (c : N) : bool :=
  ((9 <=? c) && (c <=? 13)         (* \t \n \v \f \r *)
   || (28 <=? c) && (c <=? 32)     (* FS GS RS US and the space *)
   || (c =? 133) || (c =? 160)     (* NEL, no-break space *)
   || (c =? 5760)
   || (8192 <=? c) && (c <=? 8202)
   || (c =? 8232) || (c =? 8233) || (c =? 8239) || (c =? 8287)
   || (c =? 12288))%N.

(** [s.lstrip()], [s.rstrip()] and [s.strip()] without argument. *)
Fixpoint lstrip (s : t) : t :=
  match s with
  | [] => []
  | c :: s' => if isspace c then lstrip s' else s
  end.

Definition rstrip (s : t) : t := rev (lstrip (rev s)).

Definition strip (s : t) : t := rstrip (lstrip s).

(** Truth value of a string: non-empty. *)
Definition truthy (s : t) : bool :=
  match s with [] => false | _ :: _ => true end.

(** [a in b] for strings: [a] occurs as a contiguous run of [b]. *)
Definition occurs_in (a b : t) : Prop := exists p q, b = p ++ a ++ q.

End PyStr.

Abbreviation pystr := PyStr.t.
Notation "'s!' x" := (PyStr.lit x%string) (at level 9, x at level 0, only parsing).

(** A value that is either a string or [None], as [os.environ.get] returns. *)
Definition truthy (v : option pystr) : bool :=
  match v with
  | None => false
  | Some s => PyStr.truthy s
  end.

(** What an f-string writes for such a value. *)
Definition fmt (v : option pystr) : pystr :=
  match v with
  | None => s!"None"
  | Some s => s
  end.

(** ** The process environment *)

(** [os.environ.get(key)] and [os.environ.get(key, default)]. *)
Definition environ_get (env : gmap string pystr) (key : string) : option pystr :=
  env !! key.

Definition environ_get_default (env : gmap string pystr) (key : string)
    (dflt : pystr) : pystr :=
  match env !! key with
  | Some v => v
  | None => dflt
  end.

(** ** jupyter_ai_config.py *)

Module JupyterAiConfig.

Inductive trait_value : Type :=
| VStr (s : pystr)
| VBool (b : bool).

(** The object [get_config()] returns: class sections, each mapping trait
    names to values. *)
Abbreviation Config := (gmap string (gmap string trait_value)).

(** [c.<cls>.<name> = v]; a section that does not exist yet is created
    empty by the attribute access. *)
Definition set_trait (cls name : string) (v : trait_value) (c : Config) : Config :=
  <[cls := <[name := v]> (default ∅ (c !! cls))]> c.

(** [c.<cls>.<name>], when it has been given a value. *)
Definition get_trait (cls name : string) (c : Config) : option trait_value :=
  c !! cls ≫= λ sec, sec !! name.

(** The body of the file, run on the configuration object [c] of the host. *)
Definition jupyter_ai_config (env : gmap string pystr) (c : Config) : Config :=
  let c := set_trait "AiExtension" "default_language_model"
             (VStr (environ_get_default env "JUPYTER_AI_DEFAULT_MODEL"
                      s!"openai-chat:gpt-3.5-turbo")) c in
  let c := set_trait "AiExtension" "enable_chat" (VBool true) c in
  let c := set_trait "AiExtension" "enable_code_generation" (VBool true) c in
  c.

End JupyterAiConfig.

(** ** Glob patterns of the download library *)

Module Fnmatch.

Definition star : N := 42.
Definition qmark : N := 63.
Definition slash : N := 47.

(** [fnmatch.fnmatch(name, pat)] on a POSIX system, for patterns built from
    literal characters, [*] (any run of characters, [/] included) and [?]
    (any one character). Bracket classes are left out: no pattern of the
    script has one. *)
Fixpoint glob (pat : pystr) (name : pystr) {struct pat} : bool :=
  match pat with
  | [] => match name with [] => true | _ :: _ => false end
  | c :: pat' =>
      if (c =? star)%N then
        (fix skip (n : pystr) : bool :=
           glob pat' n || match n with [] => false | _ :: n' => skip n' end) name
      else
        match name with
        | [] => false
        | d :: name' => ((c =? qmark)%N || (c =? d)%N) && glob pat' name'
        end
  end.

Definition fnmatch (name pat : pystr) : bool := glob pat name.

(** A pattern character that stands for itself. *)
Definition literal (c : N) : Prop := c <> star /\ c <> qmark.

(** The library completes a pattern that names a directory ([dir/]) to
    [dir/*] before matching. *)
Definition add_wildcard_to_directories (pat : pystr) : pystr :=
  match last pat with
  | Some c => if (c =? slash)%N then pat ++ [star] else pat
  | None => pat
  end.

(** A repository file is left out of the transfer when its path matches one
    of the [ignore_patterns]. *)
Definition ignored (ignore_patterns : list pystr) (path : pystr) : bool :=
  existsb (fnmatch path) (map add_wildcard_to_directories ignore_patterns).

End Fnmatch.

(** ** download_model.py *)

Module DownloadModel.

(** Exceptions, by the classes the script tells apart. Three kinds derive
    from [BaseException] without being instances of [Exception]:
    [SystemExit] raised with an integer code, [KeyboardInterrupt], and every
    other such exception ([SystemExit] raised with no code or with another
    object, [GeneratorExit], a cancellation, ...), kept with its [str(e)].
    Every other error is an instance of [Exception], of which the script
    uses [str(e)]. *)
Inductive exn : Type :=
| SystemExit (code : Z)
| KeyboardInterrupt
| BaseExceptionOnly (str_e : pystr)
| Exception (str_e : pystr).

Definition isinstance_Exception (e : exn) : bool :=
  match e with
  | Exception _ => true
  | SystemExit _ | KeyboardInterrupt | BaseExceptionOnly _ => false
  end.

(** [str(e)]: the message of an [Exception], the exit code of a
    [SystemExit] in decimal, nothing for a [KeyboardInterrupt]. *)
Definition exn_str (e : exn) : pystr :=
  match e with
  | Exception str_e => str_e
  | SystemExit code => PyStr.lit (NilZero.string_of_int (Z.to_int code))
  | KeyboardInterrupt => []
  | BaseExceptionOnly str_e => str_e
  end.

(** The keyword arguments of [snapshot_download]. *)
Record request : Type := Request {
  repo_id : option pystr;
  local_dir : pystr;
  token : option pystr;
  ignore_patterns : list pystr
}.

(** What the script does to the outside, in order: one line printed to
    standard output, one line printed to the error stream, one call of the
    library. *)
Inductive event : Type :=
| Stdout (line : pystr)
| Stderr (line : pystr)
| Call (req : request).

Inductive result (A : Type) : Type :=
| Ok (a : A)
| Raise (e : exn).
Arguments Ok {A} a.
Arguments Raise {A} e.

(** A computation: the events it produced and how it ended. *)
Definition M (A : Type) : Type := (list event * result A)%type.

Definition ret {A} (a : A) : M A := ([], Ok a).

Definition bind {A B} (m : M A) (k : A -> M B) : M B :=
  match m with
  | (tr, Ok a) => let (tr', r) := k a in (tr ++ tr', r)
  | (tr, Raise e) => (tr, Raise e)
  end.

Definition raise {A} (e : exn) : M A := ([], Raise e).

(** [try: body / except Exception as e: handler(str(e))]. *)
Definition try_except_Exception {A} (body : M A) (handler : pystr -> M A) : M A :=
  match body with
  | (tr, Raise (Exception str_e)) => let (tr', r) := handler str_e in (tr ++ tr', r)
  | (tr, r) => (tr, r)
  end.

#[global] Instance M_ret : MRet M := @ret.
#[global] Instance M_bind : MBind M := fun A B k m => bind m k.

(** [print(line)] and [print(line, file=sys.stderr)]; the streams accept
    every line. *)
Definition print (line : pystr) : M unit := ([Stdout line], Ok tt).
Definition print_stderr (line : pystr) : M unit := ([Stderr line], Ok tt).
Definition sys_exit (code : Z) : M unit := raise (SystemExit code).

Definition IGNORE_PATTERNS : list pystr :=
  [ s!"*.md"; s!"*.txt"; s!".gitattributes"; s!"original/*";
    s!"*.msgpack"; s!"*.h5" ].

(** Lines 21 to 23: a token that is blank after [strip()] becomes [None]. *)
Definition blank_to_None (hf_token : option pystr) : option pystr :=
  match hf_token with
  | Some t => if PyStr.eqb (PyStr.strip t) s!"" then None else Some t
  | None => None
  end.

(** How the process ends: [main()] runs under the [__main__] guard, so a
    normal return is exit status 0 and a [SystemExit] whose code is an
    integer from 0 to 255 is that status. [Uncaught e] stands for every other
    end: [e] leaves [main] and reaches the interpreter, whose report and
    exit status are not described here. *)
Inductive termination : Type :=
| Exits (status : Z)
| Uncaught (e : exn).

Definition terminate (r : result unit) : termination :=
  match r with
  | Ok _ => Exits 0
  | Raise (SystemExit code) =>
      if (0 <=? code)%Z && (code <=? 255)%Z then Exits code
      else Uncaught (SystemExit code)
  | Raise e => Uncaught e
  end.

Section Main.

(** The library call is opaque: for each request it either returns
    ([None]) or raises. What it does may depend on anything outside the
    script (the network, the hub, variables the library reads itself); a
    statement about a run holds for every such function. *)
Variable hub : request -> option exn.

Definition snapshot_download (req : request) : M unit :=
  ([Call req], match hub req with None => Ok tt | Some e => Raise e end).

Definition main (env : gmap string pystr) : M unit :=
  let model_id := environ_get env "MODEL_ID" in
  (if negb (truthy model_id) then
     print_stderr s!"ERROR: MODEL_ID environment variable is required" ;;
     sys_exit 1
   else ret tt) ;;
  let hf_token := environ_get env "HF_TOKEN" in
  let hf_token := blank_to_None hf_token in
  let output_dir := environ_get_default env "OUTPUT_DIR" s!"/models" in
  print (s!"Downloading model: " ++ fmt model_id) ;;
  print (s!"Output directory: " ++ output_dir) ;;
  print (s!"Using HF token: " ++
         (if truthy hf_token then s!"Yes" else s!"No (public models only)")) ;;
  try_except_Exception
    (snapshot_download
       {| repo_id := model_id;
          local_dir := output_dir;
          token := hf_token;
          ignore_patterns := IGNORE_PATTERNS |} ;;
     print (s!"Successfully downloaded model to " ++ output_dir))
    (fun str_e =>
       print_stderr (s!"ERROR: Failed to download model: " ++ str_e) ;;
       sys_exit 1).

Definition run (env : gmap string pystr) : list event * termination :=
  let (tr, r) := main env in (tr, terminate r).

End Main.

(** Projections of a trace. *)
Definition stdout_of (tr : list event) : list pystr :=
  omap (fun ev => match ev with Stdout l => Some l | _ => None end) tr.
Definition stderr_of (tr : list event) : list pystr :=
  omap (fun ev => match ev with Stderr l => Some l | _ => None end) tr.
Definition calls_of (tr : list event) : list request :=
  omap (fun ev => match ev with Call r => Some r | _ => None end) tr.

End DownloadModel.

Import DownloadModel.

(** ** Sample runs *)

Module Samples.

(** [MODEL_ID=foo/bar] and nothing else. *)
Definition env_foo_bar : gmap string pystr :=
  {[ "MODEL_ID" := s!"foo/bar" ]}.

(** [MODEL_ID=foo/bar HF_TOKEN=]. *)
Definition env_empty_token : gmap string pystr :=
  <[ "HF_TOKEN" := s!"" ]> env_foo_bar.

(** [MODEL_ID=foo/bar] with a token of three spaces. *)
Definition env_blank_token : gmap string pystr :=
  <[ "HF_TOKEN" := s!"   " ]> env_foo_bar.

(** A transfer that returns, one that fails with an error, and one that is
    interrupted from the keyboard. *)
Definition hub_ok : request -> option exn := fun _ => None.
Definition hub_error : request -> option exn :=
  fun _ => Some (Exception s!"404 Client Error").
Definition hub_interrupted : request -> option exn :=
  fun _ => Some KeyboardInterrupt.

End Samples.


(** * Properties *)

(** ** Strings *)

Section StripFacts.

Import PyStr.

Lemma lstrip_all_space (s : pystr) :
  forallb isspace s = true -> lstrip s = [].
Proof.
  induction s as [|c s IH]; simpl; [reflexivity|].
  intros H. apply andb_true_iff in H as [Hc Hs].
  rewrite Hc. auto.
Qed.

Lemma lstrip_nil_inv (s : pystr) :
  lstrip s = [] -> forallb isspace s = true.
Proof.
  induction s as [|c s IH]; simpl; [reflexivity|].
  destruct (isspace c); [auto | discriminate].
Qed.

Lemma forallb_lstrip_inv (s : pystr) :
  forallb isspace (lstrip s) = true -> forallb isspace s = true.
Proof.
  induction s as [|c s IH]; simpl; [reflexivity|].
  destruct (isspace c) eqn:Hc; simpl; [exact IH|].
  rewrite Hc. discriminate.
Qed.

Lemma forallb_rev (s : pystr) :
  forallb isspace (rev s) = forallb isspace s.
Proof.
  induction s as [|c s IH]; simpl; [reflexivity|].
  rewrite forallb_app, IH. simpl. rewrite andb_true_r. apply andb_comm.
Qed.

(** [s.strip() == ""] holds exactly when every character of [s] is
    whitespace. *)
Lemma strip_nil_iff (s : pystr) :
  strip s = [] <-> forallb isspace s = true.
Proof.
  unfold strip, rstrip. split.
  - intros H. apply (f_equal (@rev N)) in H.
    rewrite rev_involutive in H. simpl in H.
    apply lstrip_nil_inv in H. rewrite forallb_rev in H.
    apply forallb_lstrip_inv. assumption.
  - intros H. rewrite (lstrip_all_space s) by assumption. reflexivity.
Qed.

Lemma eqb_nil_strip (s : pystr) :
  eqb (strip s) [] = forallb isspace s.
Proof.
  unfold eqb. destruct (forallb isspace s) eqn:E.
  - apply bool_decide_eq_true. apply strip_nil_iff. assumption.
  - apply bool_decide_eq_false. intros H. apply strip_nil_iff in H. congruence.
Qed.

End StripFacts.

(** ** Glob matching *)

Section GlobFacts.

Import Fnmatch.

Lemma glob_star (p s : pystr) :
  glob (star :: p) s = true <-> exists a b, s = a ++ b /\ glob p b = true.
Proof.
  change (glob (star :: p) s) with
    ((fix skip (n : pystr) : bool :=
        glob p n || match n with [] => false | _ :: n' => skip n' end) s).
  induction s as [|d s IH].
  - rewrite orb_false_r. split.
    + intros H. exists [], []. auto.
    + intros (a & b & Hs & Hb). symmetry in Hs.
      apply app_eq_nil in Hs as [_ ->]. assumption.
  - rewrite orb_true_iff, IH. split.
    + intros [H | (a & b & -> & Hb)].
      * exists [], (d :: s). auto.
      * exists (d :: a), b. auto.
    + intros (a & b & Hs & Hb). destruct a as [|d' a]; simpl in Hs.
      * subst b. left. assumption.
      * injection Hs as -> ->. right. exists a, b. auto.
Qed.

Lemma glob_literal_app (l p s : pystr) :
  Forall literal l ->
  glob (l ++ p) s = true <-> exists b, s = l ++ b /\ glob p b = true.
Proof.
  intros Hl. revert s. induction Hl as [|c l [Hs Hq] Hl IH]; intros s.
  - simpl. split; [intros H; exists s; auto | intros (b & -> & H); exact H].
  - simpl. apply N.eqb_neq in Hs, Hq. rewrite Hs, Hq. simpl.
    destruct s as [|d s].
    + split; [discriminate | intros (b & Hb & _); discriminate].
    + rewrite andb_true_iff, N.eqb_eq, IH. split.
      * intros (-> & b & -> & Hb). exists b. auto.
      * intros (b & Hb & Hg). injection Hb as -> ->. split; [reflexivity|].
        exists b. auto.
Qed.

Lemma glob_literal (l s : pystr) :
  Forall literal l -> glob l s = true <-> s = l.
Proof.
  intros Hl. rewrite <- (app_nil_r l) at 1. rewrite glob_literal_app by assumption.
  split.
  - intros (b & -> & Hb). destruct b; [apply app_nil_r | discriminate].
  - intros ->. exists []. rewrite app_nil_r. auto.
Qed.

(** [*lit] matches exactly the names that end in [lit]. *)
Lemma glob_star_literal (l s : pystr) :
  Forall literal l -> glob (star :: l) s = true <-> l `suffix_of` s.
Proof.
  intros Hl. rewrite glob_star. split.
  - intros (a & b & -> & Hb). apply glob_literal in Hb; [|assumption].
    subst b. exists a. reflexivity.
  - intros [a ->]. exists a, l. split; [reflexivity|].
    apply glob_literal; auto.
Qed.

(** [lit*] matches exactly the names that start with [lit]. *)
Lemma glob_literal_star (l s : pystr) :
  Forall literal l -> glob (l ++ [star]) s = true <-> l `prefix_of` s.
Proof.
  intros Hl. rewrite glob_literal_app by assumption. split.
  - intros (b & -> & _). exists b. reflexivity.
  - intros [b ->]. exists b. split; [reflexivity|].
    apply glob_star. exists b, []. rewrite app_nil_r. auto.
Qed.

End GlobFacts.

(** ** The exclusion list of the script *)

Section IgnoreFacts.

Import Fnmatch.

Local Ltac literals :=
  repeat (apply List.Forall_cons; [split; discriminate|]); apply List.Forall_nil.

(** The files the list leaves out: names ending in [.md], [.txt],
    [.msgpack] or [.h5], the file [.gitattributes], and everything whose
    path starts with [original/]. *)
Lemma ignored_IGNORE_PATTERNS (path : pystr) :
  ignored IGNORE_PATTERNS path = true <->
    s!".md" `suffix_of` path \/ s!".txt" `suffix_of` path \/
    path = s!".gitattributes" \/ s!"original/" `prefix_of` path \/
    s!".msgpack" `suffix_of` path \/ s!".h5" `suffix_of` path.
Proof.
  unfold ignored, fnmatch.
  change (map add_wildcard_to_directories IGNORE_PATTERNS) with
    [ star :: s!".md"; star :: s!".txt"; s!".gitattributes";
      s!"original/" ++ [star]; star :: s!".msgpack"; star :: s!".h5" ].
  cbn [existsb]. rewrite orb_false_r, !orb_true_iff.
  rewrite !glob_star_literal, glob_literal, glob_literal_star by literals.
  reflexivity.
Qed.

Lemma suffix_last (l s : pystr) (x : N) :
  l `suffix_of` s -> last l = Some x -> last s = Some x.
Proof.
  intros [k ->] H. apply last_Some in H as [l' ->].
  rewrite app_assoc. apply last_snoc.
Qed.

(** A name ending in [.bin] is left out only under [original/]. *)
Lemma ignored_bin (path : pystr) :
  s!".bin" `suffix_of` path ->
  ignored IGNORE_PATTERNS path = true <-> s!"original/" `prefix_of` path.
Proof.
  intros Hbin. rewrite ignored_IGNORE_PATTERNS. split; [|tauto].
  pose proof (suffix_last _ _ 110%N Hbin eq_refl) as Hn.
  intros [H | [H | [H | [H | [H | H]]]]]; try exact H; exfalso.
  - pose proof (suffix_last _ _ 100%N H eq_refl). congruence.
  - pose proof (suffix_last _ _ 116%N H eq_refl). congruence.
  - subst path. discriminate.
  - pose proof (suffix_last _ _ 107%N H eq_refl). congruence.
  - pose proof (suffix_last _ _ 53%N H eq_refl). congruence.
Qed.

End IgnoreFacts.

(** ** The run of [main] *)

Section MainFacts.

Variable hub : request -> option exn.

Lemma truthy_cases (v : option pystr) :
  truthy v = false <-> v = None \/ v = Some [].
Proof.
  destruct v as [[|c s]|]; simpl; split; intros H; auto; try discriminate.
  destruct H as [H | H]; discriminate.
Qed.

(** Without a model identifier [main] prints one line to the error stream
    and leaves through [sys.exit(1)]. *)
Lemma main_usage_error (env : gmap string pystr) :
  truthy (env !! "MODEL_ID") = false ->
  main hub env =
    ([Stderr s!"ERROR: MODEL_ID environment variable is required"],
     Raise (SystemExit 1)).
Proof.
  intros H. unfold main, environ_get. rewrite H. reflexivity.
Qed.

(** With one, it prints three status lines, calls the library once, and
    ends according to what the call did. *)
Lemma main_transfer (env : gmap string pystr) :
  truthy (env !! "MODEL_ID") = true ->
  let output_dir := environ_get_default env "OUTPUT_DIR" s!"/models" in
  let hf_token := blank_to_None (env !! "HF_TOKEN") in
  let req := {| repo_id := env !! "MODEL_ID"; local_dir := output_dir;
                token := hf_token; ignore_patterns := IGNORE_PATTERNS |} in
  main hub env =
    ([ Stdout (s!"Downloading model: " ++ fmt (env !! "MODEL_ID"));
       Stdout (s!"Output directory: " ++ output_dir);
       Stdout (s!"Using HF token: " ++
               (if truthy hf_token then s!"Yes" else s!"No (public models only)"));
       Call req ] ++
     match hub req with
     | None => [Stdout (s!"Successfully downloaded model to " ++ output_dir)]
     | Some (Exception str_e) =>
         [Stderr (s!"ERROR: Failed to download model: " ++ str_e)]
     | Some _ => []
     end,
     match hub req with
     | None => Ok tt
     | Some (Exception _) => Raise (SystemExit 1)
     | Some e => Raise e
     end).
Proof.
  intros H. unfold main, environ_get. rewrite H.
  unfold snapshot_download. cbn -[PyStr.lit app IGNORE_PATTERNS].
  destruct (hub _) as [[code | | str_b | str_e]|]; reflexivity.
Qed.

End MainFacts.

Section RunFacts.

Variable hub : request -> option exn.

Lemma run_trace (env : gmap string pystr) :
  (run hub env).1 = (main hub env).1.
Proof. unfold run. destruct (main hub env). reflexivity. Qed.

Lemma run_termination (env : gmap string pystr) :
  (run hub env).2 = terminate (main hub env).2.
Proof. unfold run. destruct (main hub env). reflexivity. Qed.

(** A valid invocation calls the library exactly once, with the values
    resolved from the environment. *)
Lemma run_calls (env : gmap string pystr) :
  truthy (env !! "MODEL_ID") = true ->
  calls_of (run hub env).1 =
    [ {| repo_id := env !! "MODEL_ID";
         local_dir := environ_get_default env "OUTPUT_DIR" s!"/models";
         token := blank_to_None (env !! "HF_TOKEN");
         ignore_patterns := IGNORE_PATTERNS |} ].
Proof.
  intros H. rewrite run_trace, (main_transfer hub env H).
  cbn -[PyStr.lit app IGNORE_PATTERNS]. unfold calls_of.
  rewrite omap_app. cbn -[PyStr.lit app IGNORE_PATTERNS].
  destruct (hub _) as [[code | | str_b | str_e]|]; reflexivity.
Qed.

(** What the only call did decides the rest of the run. *)
Lemma run_after_call (env : gmap string pystr) (o : option exn) :
  truthy (env !! "MODEL_ID") = true ->
  (forall req, In req (calls_of (run hub env).1) -> hub req = o) ->
  let output_dir := environ_get_default env "OUTPUT_DIR" s!"/models" in
  let hf_token := blank_to_None (env !! "HF_TOKEN") in
  let req := {| repo_id := env !! "MODEL_ID"; local_dir := output_dir;
                token := hf_token; ignore_patterns := IGNORE_PATTERNS |} in
  run hub env =
    (map Stdout
       [ s!"Downloading model: " ++ fmt (env !! "MODEL_ID");
         s!"Output directory: " ++ output_dir;
         s!"Using HF token: " ++
           (if truthy hf_token then s!"Yes" else s!"No (public models only)") ]
     ++ Call req ::
     match o with
     | None => [Stdout (s!"Successfully downloaded model to " ++ output_dir)]
     | Some (Exception str_e) =>
         [Stderr (s!"ERROR: Failed to download model: " ++ str_e)]
     | Some _ => []
     end,
     match o with
     | None => Exits 0
     | Some (Exception _) => Exits 1
     | Some e => terminate (Raise e)
     end).
Proof.
  intros H Hcall. rewrite (run_calls env H) in Hcall.
  specialize (Hcall _ (or_introl eq_refl)).
  unfold run. rewrite (main_transfer hub env H).
  cbn -[PyStr.lit app IGNORE_PATTERNS terminate]. rewrite Hcall.
  destruct o as [[code | | str_b | str_e]|]; reflexivity.
Qed.

(** The same for [main]: an exception of the call that the handler does
    not take is the one [main] ends with, right after the call. *)
Lemma main_after_uncaught (env : gmap string pystr) (e : exn) :
  truthy (env !! "MODEL_ID") = true ->
  (forall req, In req (calls_of (run hub env).1) -> hub req = Some e) ->
  isinstance_Exception e = false ->
  let output_dir := environ_get_default env "OUTPUT_DIR" s!"/models" in
  let hf_token := blank_to_None (env !! "HF_TOKEN") in
  let req := {| repo_id := env !! "MODEL_ID"; local_dir := output_dir;
                token := hf_token; ignore_patterns := IGNORE_PATTERNS |} in
  main hub env =
    (map Stdout
       [ s!"Downloading model: " ++ fmt (env !! "MODEL_ID");
         s!"Output directory: " ++ output_dir;
         s!"Using HF token: " ++
           (if truthy hf_token then s!"Yes" else s!"No (public models only)") ]
     ++ [Call req],
     Raise e).
Proof.
  intros H Hcall He. rewrite (run_calls env H) in Hcall.
  specialize (Hcall _ (or_introl eq_refl)).
  rewrite (main_transfer hub env H).
  cbn -[PyStr.lit app IGNORE_PATTERNS]. rewrite Hcall.
  destruct e as [code | | str_b | str_e]; try discriminate He; reflexivity.
Qed.

End RunFacts.

(** ** The configuration file *)

Section ConfigFacts.

Import JupyterAiConfig.

Lemma get_set_trait (cls name : string) (v : trait_value) (c : Config) :
  get_trait cls name (set_trait cls name v c) = Some v.
Proof.
  unfold get_trait, set_trait. rewrite lookup_insert_eq. simpl.
  apply lookup_insert_eq.
Qed.

Lemma get_set_trait_ne (cls name name' : string) (v : trait_value) (c : Config) :
  name <> name' ->
  get_trait cls name' (set_trait cls name v c) = get_trait cls name' c.
Proof.
  intros Hne. unfold get_trait, set_trait. rewrite lookup_insert_eq. simpl.
  rewrite lookup_insert_ne by assumption.
  destruct (c !! cls); [reflexivity | apply lookup_empty].
Qed.

End ConfigFacts.

(** C5. Whatever the environment and the configuration object the host
    hands over, after the file has run the default language model is the
    value of [JUPYTER_AI_DEFAULT_MODEL], unchanged, when the variable is set,
    and ["openai-chat:gpt-3.5-turbo"] when it is not. *)
Theorem default_language_model_from_env
    (env : gmap string pystr) (c : JupyterAiConfig.Config) :
  JupyterAiConfig.get_trait "AiExtension" "default_language_model"
    (JupyterAiConfig.jupyter_ai_config env c) =
  Some (JupyterAiConfig.VStr
          match env !! "JUPYTER_AI_DEFAULT_MODEL" with
          | Some model => model
          | None => s!"openai-chat:gpt-3.5-turbo"
          end).
Proof.
  unfold JupyterAiConfig.jupyter_ai_config.
  rewrite !get_set_trait_ne by discriminate.
  apply get_set_trait.
Qed.

(** C6. Whatever the environment and the configuration object the host
    hands over, after the file has run [enable_chat] and
    [enable_code_generation] are both [True]. *)
Theorem chat_and_code_generation_enabled
    (env : gmap string pystr) (c : JupyterAiConfig.Config) :
  JupyterAiConfig.get_trait "AiExtension" "enable_chat"
    (JupyterAiConfig.jupyter_ai_config env c) = Some (JupyterAiConfig.VBool true) /\
  JupyterAiConfig.get_trait "AiExtension" "enable_code_generation"
    (JupyterAiConfig.jupyter_ai_config env c) = Some (JupyterAiConfig.VBool true).
Proof.
  unfold JupyterAiConfig.jupyter_ai_config. split.
  - rewrite get_set_trait_ne by discriminate. apply get_set_trait.
  - apply get_set_trait.
Qed.

(** ** The download script: usage error *)

(** C1. When [MODEL_ID] is unset or empty the script exits with status 1,
    writes its usage message to the error stream and never calls
    [snapshot_download]. *)
Theorem missing_model_id_usage_error
    (hub : request -> option exn) (env : gmap string pystr) :
  env !! "MODEL_ID" = None \/ env !! "MODEL_ID" = Some s!"" ->
  (run hub env).2 = Exits 1 /\
  stderr_of (run hub env).1 =
    [s!"ERROR: MODEL_ID environment variable is required"] /\
  calls_of (run hub env).1 = [].
Proof.
  intros H. apply truthy_cases in H.
  rewrite run_termination, run_trace, (main_usage_error hub env H).
  repeat split.
Qed.

Lemma missing_model_id_usage_error_unset :
  (∅ : gmap string pystr) !! "MODEL_ID" = None /\
  (run Samples.hub_ok ∅).2 = Exits 1 /\
  stderr_of (run Samples.hub_ok ∅).1 =
    [s!"ERROR: MODEL_ID environment variable is required"] /\
  calls_of (run Samples.hub_ok ∅).1 = [].
Proof.
  split; [reflexivity|].
  apply (missing_model_id_usage_error Samples.hub_ok ∅).
  left. reflexivity.
Defined.

(** C10. When [MODEL_ID] is unset or empty nothing reaches standard output:
    the whole run consists of the one line on the error stream. *)
Theorem missing_model_id_prints_nothing
    (hub : request -> option exn) (env : gmap string pystr) :
  env !! "MODEL_ID" = None \/ env !! "MODEL_ID" = Some s!"" ->
  stdout_of (run hub env).1 = [] /\
  (run hub env).1 = [Stderr s!"ERROR: MODEL_ID environment variable is required"].
Proof.
  intros H. apply truthy_cases in H.
  rewrite run_trace, (main_usage_error hub env H).
  split; reflexivity.
Qed.

Lemma missing_model_id_prints_nothing_empty :
  ({[ "MODEL_ID" := s!"" ]} : gmap string pystr) !! "MODEL_ID" = Some s!"" /\
  stdout_of (run Samples.hub_ok {[ "MODEL_ID" := s!"" ]}).1 = [] /\
  (run Samples.hub_ok {[ "MODEL_ID" := s!"" ]}).1 =
    [Stderr s!"ERROR: MODEL_ID environment variable is required"].
Proof.
  split; [reflexivity|].
  apply (missing_model_id_prints_nothing Samples.hub_ok {[ "MODEL_ID" := s!"" ]}).
  right. reflexivity.
Defined.

(** ** The download script: a failing transfer *)

(** C2, as stated, fails: an exception that is not an instance of
    [Exception] passes through the [except Exception] clause. With a
    transfer interrupted from the keyboard the script writes nothing to the
    error stream and does not leave through [sys.exit(1)]. *)
Lemma keyboard_interrupt_not_caught :
  ~ (forall (hub : request -> option exn) (env : gmap string pystr) (e : exn),
       truthy (env !! "MODEL_ID") = true ->
       (forall req, In req (calls_of (run hub env).1) -> hub req = Some e) ->
       (run hub env).2 = Exits 1 /\
       exists line, stderr_of (run hub env).1 = [line] /\
                    PyStr.occurs_in (exn_str e) line).
Proof.
  intros H.
  destruct (H Samples.hub_interrupted Samples.env_foo_bar KeyboardInterrupt
              eq_refl (fun _ _ => eq_refl)) as [Hexit _].
  vm_compute in Hexit. discriminate.
Qed.

(** C2, amended. For every instance [e] of [Exception] raised by the
    transfer, the script exits with status 1 and the run is: the status
    lines, the one call, and one line on the error stream that ends with
    [str(e)]; nothing follows it. An exception that is not an instance of
    [Exception] is not caught: [main] ends with that very exception right
    after the call, and the script prints no error line. *)
Theorem transfer_error_exit
    (hub : request -> option exn) (env : gmap string pystr) (e : exn) :
  truthy (env !! "MODEL_ID") = true ->
  (forall req, In req (calls_of (run hub env).1) -> hub req = Some e) ->
  (isinstance_Exception e = true ->
   (run hub env).2 = Exits 1 /\
   exists status req,
     (run hub env).1 =
       map Stdout status ++
       [Call req; Stderr (s!"ERROR: Failed to download model: " ++ exn_str e)]) /\
  (isinstance_Exception e = false ->
   (main hub env).2 = Raise e /\
   exists status req,
     (main hub env).1 = map Stdout status ++ [Call req]).
Proof.
  intros Hid Hcall. split; intros He.
  - rewrite (run_after_call hub env (Some e) Hid Hcall).
    destruct e as [code | | str_b | str_e]; try discriminate He.
    split; [reflexivity|]. eexists _, _. reflexivity.
  - rewrite (main_after_uncaught hub env e Hid Hcall He).
    split; [reflexivity|]. eexists _, _. reflexivity.
Qed.

Lemma transfer_error_exit_404 :
  (truthy (Samples.env_foo_bar !! "MODEL_ID") = true /\
   isinstance_Exception (Exception s!"404 Client Error") = true /\
   (run Samples.hub_error Samples.env_foo_bar).2 = Exits 1 /\
   exists status req,
     (run Samples.hub_error Samples.env_foo_bar).1 =
       map Stdout status ++
       [Call req;
        Stderr (s!"ERROR: Failed to download model: " ++
                exn_str (Exception s!"404 Client Error"))]) /\
  (truthy (Samples.env_foo_bar !! "MODEL_ID") = true /\
   isinstance_Exception KeyboardInterrupt = false /\
   (main Samples.hub_interrupted Samples.env_foo_bar).2 = Raise KeyboardInterrupt /\
   exists status req,
     (main Samples.hub_interrupted Samples.env_foo_bar).1 =
       map Stdout status ++ [Call req]).
Proof.
  split.
  - split; [reflexivity|]. split; [reflexivity|].
    apply (transfer_error_exit Samples.hub_error Samples.env_foo_bar
             (Exception s!"404 Client Error"));
      [reflexivity | intros req _; reflexivity | reflexivity].
  - split; [reflexivity|]. split; [reflexivity|].
    apply (transfer_error_exit Samples.hub_interrupted Samples.env_foo_bar
             KeyboardInterrupt);
      [reflexivity | intros req _; reflexivity | reflexivity].
Defined.

(** ** The download script: the exclusion list *)

(** C3, as stated, fails: the pattern ["*.bin"] is commented out in the
    list, so a PyTorch weight file such as [pytorch_model.bin] is
    transferred. *)
Lemma pytorch_bin_not_excluded :
  ~ (forall (hub : request -> option exn) (env : gmap string pystr),
       truthy (env !! "MODEL_ID") = true ->
       exists req, calls_of (run hub env).1 = [req] /\
                   forall path, s!".bin" `suffix_of` path ->
                                Fnmatch.ignored (ignore_patterns req) path = true).
Proof.
  intros H.
  destruct (H Samples.hub_ok Samples.env_foo_bar eq_refl) as (req & Hcalls & Hbin).
  rewrite run_calls in Hcalls by reflexivity.
  injection Hcalls as <-.
  specialize (Hbin s!"pytorch_model.bin" (ex_intro _ s!"pytorch_model" eq_refl)).
  vm_compute in Hbin. discriminate.
Qed.

(** C3, amended. Every invocation that passes validation calls
    [snapshot_download] exactly once, with the fixed list [*.md], [*.txt],
    [.gitattributes], [original/*], [*.msgpack], [*.h5]. The list leaves out
    exactly the files whose name ends in [.md], [.txt], [.msgpack] or [.h5],
    the file [.gitattributes] and the content of [original/]; a file whose
    name ends in [.bin] is left out only when it lies under [original/]. *)
Theorem transfer_called_once_with_exclusions
    (hub : request -> option exn) (env : gmap string pystr) :
  truthy (env !! "MODEL_ID") = true ->
  exists req,
    calls_of (run hub env).1 = [req] /\
    ignore_patterns req =
      [ s!"*.md"; s!"*.txt"; s!".gitattributes"; s!"original/*";
        s!"*.msgpack"; s!"*.h5" ] /\
    (forall path,
       Fnmatch.ignored (ignore_patterns req) path = true <->
         s!".md" `suffix_of` path \/ s!".txt" `suffix_of` path \/
         path = s!".gitattributes" \/ s!"original/" `prefix_of` path \/
         s!".msgpack" `suffix_of` path \/ s!".h5" `suffix_of` path) /\
    (forall path,
       s!".bin" `suffix_of` path ->
       Fnmatch.ignored (ignore_patterns req) path = true <->
         s!"original/" `prefix_of` path).
Proof.
  intros Hid. eexists. split; [apply (run_calls hub env Hid)|].
  cbn [ignore_patterns]. split; [reflexivity|]. split.
  - apply ignored_IGNORE_PATTERNS.
  - apply ignored_bin.
Qed.

Lemma transfer_called_once_with_exclusions_foo_bar :
  truthy (Samples.env_foo_bar !! "MODEL_ID") = true /\
  exists req,
    calls_of (run Samples.hub_ok Samples.env_foo_bar).1 = [req] /\
    ignore_patterns req =
      [ s!"*.md"; s!"*.txt"; s!".gitattributes"; s!"original/*";
        s!"*.msgpack"; s!"*.h5" ] /\
    (forall path,
       Fnmatch.ignored (ignore_patterns req) path = true <->
         s!".md" `suffix_of` path \/ s!".txt" `suffix_of` path \/
         path = s!".gitattributes" \/ s!"original/" `prefix_of` path \/
         s!".msgpack" `suffix_of` path \/ s!".h5" `suffix_of` path) /\
    (forall path,
       s!".bin" `suffix_of` path ->
       Fnmatch.ignored (ignore_patterns req) path = true <->
         s!"original/" `prefix_of` path).
Proof.
  split; [reflexivity|].
  apply (transfer_called_once_with_exclusions Samples.hub_ok Samples.env_foo_bar).
  reflexivity.
Defined.

(** ** The download script: a successful transfer *)

(** C4. When validation passes and the transfer returns, the last line on
    standard output is the confirmation, which names the output directory
    the call was given, and the script exits with status 0. *)
Theorem transfer_success_exit
    (hub : request -> option exn) (env : gmap string pystr) :
  truthy (env !! "MODEL_ID") = true ->
  (forall req, In req (calls_of (run hub env).1) -> hub req = None) ->
  (run hub env).2 = Exits 0 /\
  exists req,
    calls_of (run hub env).1 = [req] /\
    local_dir req = environ_get_default env "OUTPUT_DIR" s!"/models" /\
    last (stdout_of (run hub env).1) =
      Some (s!"Successfully downloaded model to " ++ local_dir req) /\
    stderr_of (run hub env).1 = [].
Proof.
  intros Hid Hcall. split.
  - rewrite (run_after_call hub env None Hid Hcall). reflexivity.
  - eexists. split; [apply (run_calls hub env Hid)|].
    rewrite (run_after_call hub env None Hid Hcall).
    split; [reflexivity|]. split; reflexivity.
Qed.

Lemma transfer_success_exit_foo_bar :
  truthy (Samples.env_foo_bar !! "MODEL_ID") = true /\
  (run Samples.hub_ok Samples.env_foo_bar).2 = Exits 0 /\
  exists req,
    calls_of (run Samples.hub_ok Samples.env_foo_bar).1 = [req] /\
    local_dir req = environ_get_default Samples.env_foo_bar "OUTPUT_DIR" s!"/models" /\
    last (stdout_of (run Samples.hub_ok Samples.env_foo_bar).1) =
      Some (s!"Successfully downloaded model to " ++ local_dir req) /\
    stderr_of (run Samples.hub_ok Samples.env_foo_bar).1 = [].
Proof.
  split; [reflexivity|].
  apply (transfer_success_exit Samples.hub_ok Samples.env_foo_bar).
  - reflexivity.
  - intros req _. reflexivity.
Defined.

(** ** The download script: token and output directory *)

(** C7. With [HF_TOKEN] set to the empty string the call receives
    [token=None], and the request is the one made when [HF_TOKEN] is not in
    the environment at all. *)
Theorem empty_token_is_absent
    (hub : request -> option exn) (env : gmap string pystr) :
  truthy (env !! "MODEL_ID") = true ->
  env !! "HF_TOKEN" = Some s!"" ->
  exists req,
    calls_of (run hub env).1 = [req] /\
    token req = None /\
    calls_of (run hub (delete "HF_TOKEN" env)).1 = [req].
Proof.
  intros Hid Htok. eexists. split; [apply (run_calls hub env Hid)|].
  cbn [token]. rewrite Htok. split; [reflexivity|].
  rewrite run_calls by (rewrite lookup_delete_ne by discriminate; exact Hid).
  unfold environ_get_default.
  rewrite lookup_delete_eq, !lookup_delete_ne by discriminate.
  reflexivity.
Qed.

Lemma empty_token_is_absent_foo_bar :
  truthy (Samples.env_empty_token !! "MODEL_ID") = true /\
  Samples.env_empty_token !! "HF_TOKEN" = Some s!"" /\
  exists req,
    calls_of (run Samples.hub_ok Samples.env_empty_token).1 = [req] /\
    token req = None /\
    calls_of (run Samples.hub_ok (delete "HF_TOKEN" Samples.env_empty_token)).1 = [req].
Proof.
  split; [reflexivity|]. split; [reflexivity|].
  apply (empty_token_is_absent Samples.hub_ok Samples.env_empty_token);
    reflexivity.
Defined.

(** C8. With a non-empty [MODEL_ID] and [OUTPUT_DIR] unset, the directory
    given to the call is [/models], and the second status line on standard
    output names it. *)
Theorem default_output_dir
    (hub : request -> option exn) (env : gmap string pystr) :
  truthy (env !! "MODEL_ID") = true ->
  env !! "OUTPUT_DIR" = None ->
  (exists req,
     calls_of (run hub env).1 = [req] /\ local_dir req = s!"/models") /\
  stdout_of (run hub env).1 !! 1%nat = Some s!"Output directory: /models".
Proof.
  intros Hid Hdir. split.
  - eexists. split; [apply (run_calls hub env Hid)|].
    cbn [local_dir]. unfold environ_get_default. rewrite Hdir. reflexivity.
  - rewrite run_trace, (main_transfer hub env Hid).
    unfold environ_get_default. rewrite Hdir. reflexivity.
Qed.

Lemma default_output_dir_foo_bar :
  truthy (Samples.env_foo_bar !! "MODEL_ID") = true /\
  Samples.env_foo_bar !! "OUTPUT_DIR" = None /\
  (exists req,
     calls_of (run Samples.hub_ok Samples.env_foo_bar).1 = [req] /\
     local_dir req = s!"/models") /\
  stdout_of (run Samples.hub_ok Samples.env_foo_bar).1 !! 1%nat =
    Some s!"Output directory: /models".
Proof.
  split; [reflexivity|]. split; [reflexivity|].
  apply (default_output_dir Samples.hub_ok Samples.env_foo_bar); reflexivity.
Defined.

(** C9. With [HF_TOKEN] set to a non-empty string of whitespace characters
    only, the call receives [token=None] as well. *)
Theorem blank_token_is_absent
    (hub : request -> option exn) (env : gmap string pystr) (t : pystr) :
  truthy (env !! "MODEL_ID") = true ->
  env !! "HF_TOKEN" = Some t ->
  t <> s!"" ->
  forallb PyStr.isspace t = true ->
  exists req, calls_of (run hub env).1 = [req] /\ token req = None.
Proof.
  intros Hid Htok _ Hblank. eexists. split; [apply (run_calls hub env Hid)|].
  cbn [token]. rewrite Htok. unfold blank_to_None.
  change (PyStr.lit "") with (@nil N). rewrite eqb_nil_strip, Hblank.
  reflexivity.
Qed.

Lemma blank_token_is_absent_spaces :
  truthy (Samples.env_blank_token !! "MODEL_ID") = true /\
  Samples.env_blank_token !! "HF_TOKEN" = Some s!"   " /\
  s!"   " <> s!"" /\
  forallb PyStr.isspace s!"   " = true /\
  exists req,
    calls_of (run Samples.hub_ok Samples.env_blank_token).1 = [req] /\
    token req = None.
Proof.
  split; [reflexivity|]. split; [reflexivity|].
  split; [discriminate|]. split; [reflexivity|].
  apply (blank_token_is_absent Samples.hub_ok Samples.env_blank_token s!"   ");
    [reflexivity | reflexivity | discriminate | reflexivity].
Defined.

(** * Further properties of the two scripts *)

(** ** The configuration file: what it leaves alone *)

Section ConfigFrame.

Import JupyterAiConfig.

Lemma get_set_trait_other_section
    (cls cls' name name' : string) (v : trait_value) (c : Config) :
  cls <> cls' ->
  get_trait cls' name' (set_trait cls name v c) = get_trait cls' name' c.
Proof.
  intros Hne. unfold get_trait, set_trait.
  rewrite lookup_insert_ne by assumption. reflexivity.
Qed.

(** The three assignments, as one update of the [AiExtension] section. *)
Lemma jupyter_ai_config_section (env : gmap string pystr) (c : Config) :
  jupyter_ai_config env c =
    <["AiExtension" :=
        <["enable_code_generation" := VBool true]>
          (<["enable_chat" := VBool true]>
             (<["default_language_model" :=
                  VStr (environ_get_default env "JUPYTER_AI_DEFAULT_MODEL"
                          s!"openai-chat:gpt-3.5-turbo")]>
                (default ∅ (c !! "AiExtension"))))]> c.
Proof.
  unfold jupyter_ai_config, set_trait.
  rewrite !lookup_insert_eq. simpl. rewrite !insert_insert_eq. reflexivity.
Qed.

End ConfigFrame.

(** X1. The file touches three traits of [AiExtension] and nothing else:
    every other trait of that section, and every trait of every other
    section, reads after the run as it did before. *)
Theorem config_other_traits_untouched
    (env : gmap string pystr) (c : JupyterAiConfig.Config) (cls name : string) :
  cls <> "AiExtension" \/
    (name <> "default_language_model" /\ name <> "enable_chat" /\
     name <> "enable_code_generation") ->
  JupyterAiConfig.get_trait cls name (JupyterAiConfig.jupyter_ai_config env c) =
  JupyterAiConfig.get_trait cls name c.
Proof.
  intros H. unfold JupyterAiConfig.jupyter_ai_config.
  destruct (decide (cls = "AiExtension")) as [-> | Hcls].
  - destruct H as [H | (H1 & H2 & H3)]; [congruence|].
    rewrite !get_set_trait_ne by congruence. reflexivity.
  - rewrite !get_set_trait_other_section by congruence. reflexivity.
Qed.

Lemma config_other_traits_untouched_log_level :
  ("AiExtension" <> "AiExtension" \/
     ("log_level" <> "default_language_model" /\ "log_level" <> "enable_chat" /\
      "log_level" <> "enable_code_generation")) /\
  JupyterAiConfig.get_trait "AiExtension" "log_level"
    (JupyterAiConfig.jupyter_ai_config ∅
       {[ "AiExtension" := {[ "log_level" := JupyterAiConfig.VStr s!"DEBUG" ]} ]}) =
  JupyterAiConfig.get_trait "AiExtension" "log_level"
    {[ "AiExtension" := {[ "log_level" := JupyterAiConfig.VStr s!"DEBUG" ]} ]}.
Proof.
  assert (Hpre : "AiExtension" <> "AiExtension" \/
     ("log_level" <> "default_language_model" /\ "log_level" <> "enable_chat" /\
      "log_level" <> "enable_code_generation")).
  { right. repeat split; discriminate. }
  split; [exact Hpre|].
  apply (config_other_traits_untouched ∅ _ "AiExtension" "log_level" Hpre).
Defined.

(** X2. Loading the file a second time changes nothing: the configuration
    object after two runs is the one after the first. *)
Theorem config_idempotent
    (env : gmap string pystr) (c : JupyterAiConfig.Config) :
  JupyterAiConfig.jupyter_ai_config env (JupyterAiConfig.jupyter_ai_config env c) =
  JupyterAiConfig.jupyter_ai_config env c.
Proof.
  rewrite (jupyter_ai_config_section env (JupyterAiConfig.jupyter_ai_config env c)).
  rewrite (jupyter_ai_config_section env c).
  rewrite lookup_insert_eq. simpl. rewrite insert_insert_eq.
  f_equal. apply map_eq. intros k.
  rewrite !lookup_insert. repeat case_decide; reflexivity.
Qed.

(** X3. The values already in the object do not matter for the three traits,
    and the order of two loads with different environments does: the later
    load wins. *)
Theorem config_last_load_wins
    (env env' : gmap string pystr) (c : JupyterAiConfig.Config) :
  JupyterAiConfig.jupyter_ai_config env' (JupyterAiConfig.jupyter_ai_config env c) =
  JupyterAiConfig.jupyter_ai_config env' c.
Proof.
  rewrite (jupyter_ai_config_section env' (JupyterAiConfig.jupyter_ai_config env c)).
  rewrite (jupyter_ai_config_section env c), (jupyter_ai_config_section env' c).
  rewrite lookup_insert_eq. simpl. rewrite insert_insert_eq.
  f_equal. apply map_eq. intros k.
  rewrite !lookup_insert. repeat case_decide; reflexivity.
Qed.

(** ** The download script: the whole run *)

Section RunShape.

Variable hub : request -> option exn.

(** A valid run, whatever the call does. *)
Lemma run_valid (env : gmap string pystr) :
  truthy (env !! "MODEL_ID") = true ->
  let output_dir := environ_get_default env "OUTPUT_DIR" s!"/models" in
  let hf_token := blank_to_None (env !! "HF_TOKEN") in
  let req := {| repo_id := env !! "MODEL_ID"; local_dir := output_dir;
                token := hf_token; ignore_patterns := IGNORE_PATTERNS |} in
  run hub env =
    (map Stdout
       [ s!"Downloading model: " ++ fmt (env !! "MODEL_ID");
         s!"Output directory: " ++ output_dir;
         s!"Using HF token: " ++
           (if truthy hf_token then s!"Yes" else s!"No (public models only)") ]
     ++ Call req ::
     match hub req with
     | None => [Stdout (s!"Successfully downloaded model to " ++ output_dir)]
     | Some (Exception str_e) =>
         [Stderr (s!"ERROR: Failed to download model: " ++ str_e)]
     | Some _ => []
     end,
     match hub req with
     | None => Exits 0
     | Some (Exception _) => Exits 1
     | Some e => terminate (Raise e)
     end).
Proof.
  intros H. cbv zeta. apply (run_after_call hub env _ H).
  intros req Hin. rewrite (run_calls hub env H) in Hin.
  destruct Hin as [<- | []]. reflexivity.
Qed.

Lemma run_invalid (env : gmap string pystr) :
  truthy (env !! "MODEL_ID") = false ->
  run hub env =
    ([Stderr s!"ERROR: MODEL_ID environment variable is required"], Exits 1).
Proof.
  intros H. unfold run. rewrite (main_usage_error hub env H). reflexivity.
Qed.

(** A token survives [blank_to_None] exactly when it has a character that is
    not whitespace, and then it is unchanged. *)
Lemma blank_to_None_Some (v : option pystr) (t : pystr) :
  blank_to_None v = Some t <-> v = Some t /\ forallb PyStr.isspace t = false.
Proof.
  unfold blank_to_None. destruct v as [u|]; [|split; [discriminate | intros [? _]; discriminate]].
  change (PyStr.lit "") with (@nil N). rewrite eqb_nil_strip.
  destruct (forallb PyStr.isspace u) eqn:E; split.
  - discriminate.
  - intros [[= ->] H]. congruence.
  - intros [= ->]. auto.
  - intros [[= ->] _]. reflexivity.
Qed.

Lemma nonblank_truthy (t : pystr) :
  forallb PyStr.isspace t = false -> truthy (Some t) = true.
Proof. destruct t; [discriminate | reflexivity]. Qed.

End RunShape.

(** X5. The library is called at most once in any run, and exactly once
    when [MODEL_ID] is set and not empty, whatever the call does. *)
Theorem transfer_call_count
    (hub : request -> option exn) (env : gmap string pystr) :
  length (calls_of (run hub env).1) =
    if truthy (env !! "MODEL_ID") then 1%nat else 0%nat.
Proof.
  destruct (truthy (env !! "MODEL_ID")) eqn:H.
  - rewrite (run_calls hub env H). reflexivity.
  - rewrite (run_invalid hub env H). reflexivity.
Qed.

(** X6. In a valid run the three status lines are printed before the
    library is called, nothing goes to the error stream before the call, and
    after the call at most one more line is written and no second call is
    made. *)
Theorem status_lines_precede_call
    (hub : request -> option exn) (env : gmap string pystr) :
  truthy (env !! "MODEL_ID") = true ->
  exists l1 l2 l3 req rest,
    (run hub env).1 = [Stdout l1; Stdout l2; Stdout l3; Call req] ++ rest /\
    (length rest <= 1)%nat /\ calls_of rest = [].
Proof.
  intros H. rewrite (run_valid hub env H). cbn [fst map app].
  do 4 eexists. eexists. split; [reflexivity|].
  destruct (hub _) as [[code | | str_b | str_e]|]; cbn; split; (lia || reflexivity).
Qed.

Lemma status_lines_precede_call_foo_bar :
  truthy (Samples.env_foo_bar !! "MODEL_ID") = true /\
  exists l1 l2 l3 req rest,
    (run Samples.hub_error Samples.env_foo_bar).1 =
      [Stdout l1; Stdout l2; Stdout l3; Call req] ++ rest /\
    (length rest <= 1)%nat /\ calls_of rest = [].
Proof.
  split; [reflexivity|].
  apply (status_lines_precede_call Samples.hub_error Samples.env_foo_bar).
  reflexivity.
Defined.

(** ** The download script: what reaches the library *)

(** X7. A token with at least one character that is not whitespace is
    passed to the library exactly as it stands in the environment, leading
    and trailing whitespace included, and the third status line says
    [Yes]. *)
Theorem nonblank_token_passed_verbatim
    (hub : request -> option exn) (env : gmap string pystr) (t : pystr) :
  truthy (env !! "MODEL_ID") = true ->
  env !! "HF_TOKEN" = Some t ->
  forallb PyStr.isspace t = false ->
  (exists req, calls_of (run hub env).1 = [req] /\ token req = Some t) /\
  stdout_of (run hub env).1 !! 2%nat = Some s!"Using HF token: Yes".
Proof.
  intros Hid Htok Hnb.
  assert (Hb : blank_to_None (env !! "HF_TOKEN") = Some t).
  { apply blank_to_None_Some. auto. }
  split.
  - eexists. split; [apply (run_calls hub env Hid)|]. exact Hb.
  - rewrite (run_valid hub env Hid), Hb, (nonblank_truthy t Hnb). reflexivity.
Qed.

Lemma nonblank_token_passed_verbatim_padded :
  truthy ((<["HF_TOKEN" := s!" hf_abc "]> Samples.env_foo_bar) !! "MODEL_ID") = true /\
  (<["HF_TOKEN" := s!" hf_abc "]> Samples.env_foo_bar) !! "HF_TOKEN" =
    Some s!" hf_abc " /\
  forallb PyStr.isspace s!" hf_abc " = false /\
  (exists req,
     calls_of (run Samples.hub_ok
                 (<["HF_TOKEN" := s!" hf_abc "]> Samples.env_foo_bar)).1 = [req] /\
     token req = Some s!" hf_abc ") /\
  stdout_of (run Samples.hub_ok
               (<["HF_TOKEN" := s!" hf_abc "]> Samples.env_foo_bar)).1 !! 2%nat =
    Some s!"Using HF token: Yes".
Proof.
  split; [reflexivity|]. split; [reflexivity|]. split; [reflexivity|].
  apply (nonblank_token_passed_verbatim Samples.hub_ok
           (<["HF_TOKEN" := s!" hf_abc "]> Samples.env_foo_bar) s!" hf_abc ");
    reflexivity.
Defined.

(** X8. Whatever the environment, a token that reaches the library is the
    value of [HF_TOKEN] and has a character that is not whitespace: the
    library never receives an empty or blank token. *)
Theorem token_passed_is_never_blank
    (hub : request -> option exn) (env : gmap string pystr)
    (req : request) (t : pystr) :
  In req (calls_of (run hub env).1) ->
  token req = Some t ->
  env !! "HF_TOKEN" = Some t /\ forallb PyStr.isspace t = false.
Proof.
  intros Hin Htok. destruct (truthy (env !! "MODEL_ID")) eqn:Hid.
  - rewrite (run_calls hub env Hid) in Hin. destruct Hin as [<- | []].
    apply blank_to_None_Some. exact Htok.
  - rewrite (run_invalid hub env Hid) in Hin. destruct Hin.
Qed.

Lemma token_passed_is_never_blank_padded :
  exists req,
    In req (calls_of (run Samples.hub_ok
                        (<["HF_TOKEN" := s!" hf_abc "]> Samples.env_foo_bar)).1) /\
    token req = Some s!" hf_abc " /\
    (<["HF_TOKEN" := s!" hf_abc "]> Samples.env_foo_bar) !! "HF_TOKEN" =
      Some s!" hf_abc " /\
    forallb PyStr.isspace s!" hf_abc " = false.
Proof.
  eexists. split; [left; reflexivity|]. split; [reflexivity|].
  eapply (token_passed_is_never_blank Samples.hub_ok
            (<["HF_TOKEN" := s!" hf_abc "]> Samples.env_foo_bar)).
  - left. reflexivity.
  - reflexivity.
Defined.

(** X9. A value of [OUTPUT_DIR] is used as it is, the empty string
    included: it is the directory given to the library and the one named in
    the second status line; [/models] is used only when the variable is
    unset. *)
Theorem output_dir_passed_verbatim
    (hub : request -> option exn) (env : gmap string pystr) (d : pystr) :
  truthy (env !! "MODEL_ID") = true ->
  env !! "OUTPUT_DIR" = Some d ->
  (exists req, calls_of (run hub env).1 = [req] /\ local_dir req = d) /\
  stdout_of (run hub env).1 !! 1%nat = Some (s!"Output directory: " ++ d).
Proof.
  intros Hid Hdir. split.
  - eexists. split; [apply (run_calls hub env Hid)|].
    cbn [local_dir]. unfold environ_get_default. rewrite Hdir. reflexivity.
  - rewrite (run_valid hub env Hid).
    unfold environ_get_default. rewrite Hdir. reflexivity.
Qed.

Lemma output_dir_passed_verbatim_empty :
  truthy ((<["OUTPUT_DIR" := s!""]> Samples.env_foo_bar) !! "MODEL_ID") = true /\
  (<["OUTPUT_DIR" := s!""]> Samples.env_foo_bar) !! "OUTPUT_DIR" = Some s!"" /\
  (exists req,
     calls_of (run Samples.hub_ok
                 (<["OUTPUT_DIR" := s!""]> Samples.env_foo_bar)).1 = [req] /\
     local_dir req = s!"") /\
  stdout_of (run Samples.hub_ok
               (<["OUTPUT_DIR" := s!""]> Samples.env_foo_bar)).1 !! 1%nat =
    Some (s!"Output directory: " ++ s!"").
Proof.
  split; [reflexivity|]. split; [reflexivity|].
  apply (output_dir_passed_verbatim Samples.hub_ok
           (<["OUTPUT_DIR" := s!""]> Samples.env_foo_bar) s!"");
    reflexivity.
Defined.

(** X10. Every non-empty [MODEL_ID] passes validation and is handed to the
    library unchanged, a value of whitespace only included: unlike the
    token, the identifier is not stripped. The first status line names it. *)
Theorem model_id_passed_verbatim
    (hub : request -> option exn) (env : gmap string pystr) (m : pystr) :
  env !! "MODEL_ID" = Some m ->
  m <> s!"" ->
  (exists req, calls_of (run hub env).1 = [req] /\ repo_id req = Some m) /\
  stdout_of (run hub env).1 !! 0%nat = Some (s!"Downloading model: " ++ m).
Proof.
  intros Hm Hne.
  assert (Hid : truthy (env !! "MODEL_ID") = true).
  { rewrite Hm. destruct m; [contradiction Hne; reflexivity | reflexivity]. }
  split.
  - eexists. split; [apply (run_calls hub env Hid)|]. exact Hm.
  - rewrite (run_valid hub env Hid), Hm. reflexivity.
Qed.

Lemma model_id_passed_verbatim_spaces :
  ({[ "MODEL_ID" := s!"  " ]} : gmap string pystr) !! "MODEL_ID" = Some s!"  " /\
  s!"  " <> s!"" /\
  (exists req,
     calls_of (run Samples.hub_ok {[ "MODEL_ID" := s!"  " ]}).1 = [req] /\
     repo_id req = Some s!"  ") /\
  stdout_of (run Samples.hub_ok {[ "MODEL_ID" := s!"  " ]}).1 !! 0%nat =
    Some (s!"Downloading model: " ++ s!"  ").
Proof.
  split; [reflexivity|]. split; [discriminate|].
  apply (model_id_passed_verbatim Samples.hub_ok {[ "MODEL_ID" := s!"  " ]} s!"  ");
    [reflexivity | discriminate].
Defined.

(** ** The download script: how a run ends *)

(** X11. After an exception of the transfer that is not an instance of
    [Exception], the script prints nothing more: the run consists of the
    three status lines and the call, with neither the confirmation nor an
    error line, and [main] ends with the exception as it was raised. *)
Theorem non_Exception_propagates
    (hub : request -> option exn) (env : gmap string pystr) (e : exn) :
  truthy (env !! "MODEL_ID") = true ->
  isinstance_Exception e = false ->
  (forall req, In req (calls_of (run hub env).1) -> hub req = Some e) ->
  (main hub env).2 = Raise e /\
  exists l1 l2 l3 req,
    (main hub env).1 = [Stdout l1; Stdout l2; Stdout l3; Call req].
Proof.
  intros Hid He Hcall.
  rewrite (main_after_uncaught hub env e Hid Hcall He).
  split; [reflexivity|]. do 4 eexists. reflexivity.
Qed.

Lemma non_Exception_propagates_SystemExit :
  truthy (Samples.env_foo_bar !! "MODEL_ID") = true /\
  isinstance_Exception (SystemExit 3) = false /\
  (main (fun _ => Some (SystemExit 3)) Samples.env_foo_bar).2 =
    Raise (SystemExit 3) /\
  exists l1 l2 l3 req,
    (main (fun _ => Some (SystemExit 3)) Samples.env_foo_bar).1 =
      [Stdout l1; Stdout l2; Stdout l3; Call req].
Proof.
  split; [reflexivity|]. split; [reflexivity|].
  apply (non_Exception_propagates (fun _ => Some (SystemExit 3))
           Samples.env_foo_bar (SystemExit 3)).
  - reflexivity.
  - reflexivity.
  - intros req _. reflexivity.
Defined.

(** X12. [main] returns normally exactly when [MODEL_ID] is set and not
    empty and the one call of the library returned; in every other case it
    ends with an exception, its own [SystemExit(1)] or one of the
    transfer. *)
Theorem main_returns_only_after_transfer
    (hub : request -> option exn) (env : gmap string pystr) :
  (main hub env).2 = Ok tt <->
  truthy (env !! "MODEL_ID") = true /\
  exists req, calls_of (main hub env).1 = [req] /\ hub req = None.
Proof.
  destruct (truthy (env !! "MODEL_ID")) eqn:Hid.
  - pose proof (run_calls hub env Hid) as Hcalls. rewrite run_trace in Hcalls.
    pose proof (main_transfer hub env Hid) as Hmain. cbv zeta in Hmain.
    set (req0 := Request _ _ _ _) in *.
    rewrite Hcalls, Hmain. cbn [snd]. clear Hcalls Hmain.
    split.
    + intros Hok. split; [reflexivity|]. exists req0. split; [reflexivity|].
      destruct (hub req0) as [[code | | str_b | str_e]|];
        [discriminate Hok .. | reflexivity].
    + intros (_ & req & Heq & Hreq).
      assert (Hsame : req0 = req) by congruence.
      rewrite Hsame, Hreq. reflexivity.
  - rewrite (main_usage_error hub env Hid). cbn [snd].
    split; [discriminate | intros [H _]; discriminate H].
Qed.

(** X13. What the script prints does not depend on which non-blank token
    is set: two runs that differ only in the value of a non-blank
    [HF_TOKEN], and in which the call ends the same way (it returns, or
    raises the same exception with the same [str(e)]), write the same lines
    to standard output and to the error stream and end the same way. The
    text of an exception raised by the library is printed as it comes. *)
Theorem output_same_for_nonblank_tokens
    (hub : request -> option exn) (env : gmap string pystr)
    (t1 t2 : pystr) (o : option exn) :
  forallb PyStr.isspace t1 = false ->
  forallb PyStr.isspace t2 = false ->
  (forall req, In req (calls_of (run hub (<["HF_TOKEN" := t1]> env)).1) ->
               hub req = o) ->
  (forall req, In req (calls_of (run hub (<["HF_TOKEN" := t2]> env)).1) ->
               hub req = o) ->
  stdout_of (run hub (<["HF_TOKEN" := t1]> env)).1 =
    stdout_of (run hub (<["HF_TOKEN" := t2]> env)).1 /\
  stderr_of (run hub (<["HF_TOKEN" := t1]> env)).1 =
    stderr_of (run hub (<["HF_TOKEN" := t2]> env)).1 /\
  (run hub (<["HF_TOKEN" := t1]> env)).2 = (run hub (<["HF_TOKEN" := t2]> env)).2.
Proof.
  intros H1 H2 Hc1 Hc2.
  assert (Hm : forall t : pystr,
             (<["HF_TOKEN" := t]> env) !! "MODEL_ID" = env !! "MODEL_ID")
    by (intros t; apply lookup_insert_ne; discriminate).
  assert (Hd : forall t : pystr,
             (<["HF_TOKEN" := t]> env) !! "OUTPUT_DIR" = env !! "OUTPUT_DIR")
    by (intros t; apply lookup_insert_ne; discriminate).
  destruct (truthy (env !! "MODEL_ID")) eqn:Hid.
  - assert (Hb : forall t : pystr, forallb PyStr.isspace t = false ->
                 blank_to_None ((<["HF_TOKEN" := t]> env) !! "HF_TOKEN") = Some t).
    { intros t Ht. rewrite lookup_insert_eq. apply blank_to_None_Some. auto. }
    rewrite (run_after_call hub _ o (eq_trans (f_equal truthy (Hm t1)) Hid) Hc1).
    rewrite (run_after_call hub _ o (eq_trans (f_equal truthy (Hm t2)) Hid) Hc2).
    cbv zeta. unfold environ_get_default.
    rewrite !Hm, !Hd, (Hb t1 H1), (Hb t2 H2).
    rewrite (nonblank_truthy t1 H1), (nonblank_truthy t2 H2).
    cbn [fst snd]. unfold stdout_of, stderr_of. rewrite !omap_app.
    repeat split.
  - rewrite !run_invalid by (rewrite Hm; exact Hid). repeat split.
Qed.

Lemma output_same_for_nonblank_tokens_two_tokens :
  forallb PyStr.isspace s!"hf_abc" = false /\
  forallb PyStr.isspace s!"hf_xyz" = false /\
  stdout_of (run Samples.hub_error (<["HF_TOKEN" := s!"hf_abc"]> Samples.env_foo_bar)).1 =
    stdout_of (run Samples.hub_error (<["HF_TOKEN" := s!"hf_xyz"]> Samples.env_foo_bar)).1 /\
  stderr_of (run Samples.hub_error (<["HF_TOKEN" := s!"hf_abc"]> Samples.env_foo_bar)).1 =
    stderr_of (run Samples.hub_error (<["HF_TOKEN" := s!"hf_xyz"]> Samples.env_foo_bar)).1 /\
  (run Samples.hub_error (<["HF_TOKEN" := s!"hf_abc"]> Samples.env_foo_bar)).2 =
    (run Samples.hub_error (<["HF_TOKEN" := s!"hf_xyz"]> Samples.env_foo_bar)).2.
Proof.
  split; [reflexivity|]. split; [reflexivity|].
  apply (output_same_for_nonblank_tokens Samples.hub_error Samples.env_foo_bar
           s!"hf_abc" s!"hf_xyz" (Some (Exception s!"404 Client Error")));
    [reflexivity | reflexivity | intros req _; reflexivity
    | intros req _; reflexivity].
Defined.

(** ** The download script: files that are kept *)

(** X14. Weights in the safetensors format are transferred: a file whose
    name ends in [.safetensors] is left out only when it lies under
    [original/]. *)
Theorem safetensors_kept (path : pystr) :
  s!".safetensors" `suffix_of` path ->
  Fnmatch.ignored IGNORE_PATTERNS path = true <-> s!"original/" `prefix_of` path.
Proof.
  intros Hst. rewrite ignored_IGNORE_PATTERNS. split; [|tauto].
  pose proof (suffix_last _ _ 115%N Hst eq_refl) as Hn.
  intros [H | [H | [H | [H | [H | H]]]]]; try exact H; exfalso.
  - pose proof (suffix_last _ _ 100%N H eq_refl). congruence.
  - pose proof (suffix_last _ _ 116%N H eq_refl). congruence.
  - subst path. destruct Hst as [k Hk].
    apply (f_equal (@rev N)) in Hk. rewrite rev_app_distr in Hk.
    cbn in Hk. discriminate Hk.
  - pose proof (suffix_last _ _ 107%N H eq_refl). congruence.
  - pose proof (suffix_last _ _ 53%N H eq_refl). congruence.
Qed.

Lemma safetensors_kept_model :
  s!".safetensors" `suffix_of` s!"model-00001-of-00002.safetensors" /\
  (Fnmatch.ignored IGNORE_PATTERNS s!"model-00001-of-00002.safetensors" = true <->
   s!"original/" `prefix_of` s!"model-00001-of-00002.safetensors").
Proof.
  assert (H : s!".safetensors" `suffix_of` s!"model-00001-of-00002.safetensors")
    by (exists (PyStr.lit "model-00001-of-00002"); reflexivity).
  split; [exact H|].
  apply (safetensors_kept s!"model-00001-of-00002.safetensors" H).
Defined.

(** X15. The third status line tells what the library receives: it reads
    [Yes] exactly when the request carries a token, and
    [No (public models only)] when the token argument is [None]. *)
Theorem token_status_line_matches_request
    (hub : request -> option exn) (env : gmap string pystr) :
  truthy (env !! "MODEL_ID") = true ->
  exists req,
    calls_of (run hub env).1 = [req] /\
    stdout_of (run hub env).1 !! 2%nat =
      Some (s!"Using HF token: " ++
            match token req with
            | Some _ => s!"Yes"
            | None => s!"No (public models only)"
            end).
Proof.
  intros Hid. eexists. split; [apply (run_calls hub env Hid)|].
  rewrite (run_valid hub env Hid). cbn [token].
  destruct (blank_to_None (env !! "HF_TOKEN")) as [t|] eqn:Hb.
  - apply blank_to_None_Some in Hb as [_ Hnb].
    rewrite (nonblank_truthy t Hnb). reflexivity.
  - reflexivity.
Qed.

Lemma token_status_line_matches_request_blank :
  truthy (Samples.env_blank_token !! "MODEL_ID") = true /\
  exists req,
    calls_of (run Samples.hub_ok Samples.env_blank_token).1 = [req] /\
    stdout_of (run Samples.hub_ok Samples.env_blank_token).1 !! 2%nat =
      Some (s!"Using HF token: " ++
            match token req with
            | Some _ => s!"Yes"
            | None => s!"No (public models only)"
            end).
Proof.
  split; [reflexivity|].
  apply (token_status_line_matches_request Samples.hub_ok Samples.env_blank_token).
  reflexivity.
Defined.
